(** * do_floating_ip_facts: the DigitalOcean floating-IP facts module

    A shallow embedding of [cloud/digital_ocean/do_floating_ip_facts.py]:
    the [Response] adapter, the [Rest] client wrapper, the orchestration
    routine [core] and the top-level handler of [main].

    Python values are modelled by inductive types, a [dict] with string
    keys by a finite map (the request headers, [module.params], the
    transport's [info]) or, for a decoded JSON object, by an association
    list in insertion order.  Control effects are explicit: a computation
    returns, raises an exception (a subclass of [Exception]) or leaves the
    interpreter through [exit_json] / [fail_json], which end in [sys.exit];
    the requests handed to [fetch_url] are recorded in a log that is
    threaded through the computation. *)

From Stdlib Require Import ZArith String Ascii List.
From stdpp Require Import base strings gmap pretty.
Import ListNotations.

Local Open Scope Z_scope.
Local Open Scope string_scope.

(** ** Values *)

(** What [json.loads] returns.  Python's [None] is [JNull]; a decoded
    object is a [dict], kept here as its items in insertion order. *)
#[warnings="-register-all"] Inductive json : Type :=
| JNull
| JBool (b : bool)
| JInt (z : Z)
| JStr (s : string)
| JArr (items : list json)
| JObj (items : list (string * json)).

(** The values the transport stores in its [info] dictionary: the integer
    [status] and text fields such as [msg], [url], [body] and the
    lower-cased response headers. *)
Inductive ival : Type :=
| IInt (z : Z)
| IStr (s : string).

(** ** Exceptions and process results *)

(** The [TypeError]s the module can provoke. *)
Inductive type_error : Type :=
| NotSubscriptable (v : json)    (* [v[k]] where [v] is None, a bool or an int *)
| BadIndex (v : json) (k : string) (* [v[k]] where [v] is a list or a str *)
| LoadsArgument (x : ival).      (* [json.loads(x)] where [x] is not text *)

(** Exceptions, all of them subclasses of [Exception]. *)
Inductive exn : Type :=
| KeyError (key : string)
| ValueError (doc : string)      (* [json.loads] rejected [doc] *)
| TypeError (t : type_error)
| IndexError                     (* [path[0]] on the empty string *)
| TransportError (text : string) (* anything [fetch_url] raises *).

(** The keyword arguments of the call that ends the process. *)
Inductive outcome : Type :=
| ExitJson (changed : bool) (data : json)   (* [module.exit_json] *)
| FailJson (msg : string).                  (* [module.fail_json] *)

(** How a computation ends.  [Exit] is the [SystemExit] of [exit_json] and
    [fail_json]: it is not an [Exception], so [except Exception] lets it
    through. *)
Inductive result (A : Type) : Type :=
| Ret (a : A)
| Raise (e : exn)
| Exit (o : outcome).
Arguments Ret {A} a.
Arguments Raise {A} e.
Arguments Exit {A} o.

(** ** Requests and the request log *)

(** The arguments of one [fetch_url] call. *)
Record request : Type := Request {
  req_url : string;
  req_data : string;
  req_headers : gmap string string;
  req_method : string
}.

(** A computation over the log of requests issued so far. *)
Definition M (A : Type) : Type := list request -> result A * list request.

Definition ret {A} (a : A) : M A := fun log => (Ret a, log).

Definition bind {A B} (c : M A) (k : A -> M B) : M B :=
  fun log =>
    match c log with
    | (Ret a, log') => k a log'
    | (Raise e, log') => (Raise e, log')
    | (Exit o, log') => (Exit o, log')
    end.

(** A step that does not touch the log. *)
Definition lift {A} (r : result A) : M A := fun log => (r, log).

(** [try: c except Exception as e: h e]. *)
Definition try_except {A} (c : M A) (h : exn -> M A) : M A :=
  fun log =>
    match c log with
    | (Raise e, log') => h e log'
    | other => other
    end.

Declare Scope py_scope.
Delimit Scope py_scope with py.
Notation "x <- c ;; k" := (bind c (fun x => k))
  (at level 100, c at next level, right associativity) : py_scope.
Local Open Scope py_scope.

(** ** Python primitives *)

(** Truth value of [self.body]: [None] and the empty text are false. *)
Definition truthy (body : option string) : bool :=
  match body with
  | None => false
  | Some "" => false
  | Some _ => true
  end.

(** [d[k]] on a [dict] kept as its items. *)
Fixpoint dict_get (items : list (string * json)) (k : string) : option json :=
  match items with
  | [] => None
  | (k', v) :: rest => if String.eqb k' k then Some v else dict_get rest k
  end.

(** [v[k]] for a decoded value [v] and a text key [k]. *)
Definition getitem (v : json) (k : string) : result json :=
  match v with
  | JObj items =>
      match dict_get items k with
      | Some x => Ret x
      | None => Raise (KeyError k)
      end
  | JArr _ | JStr _ => Raise (TypeError (BadIndex v k))
  | JNull | JBool _ | JInt _ => Raise (TypeError (NotSubscriptable v))
  end.

(** [info[k]] on the transport's dictionary. *)
Definition info_get (info : gmap string ival) (k : string) : result ival :=
  match info !! k with
  | Some x => Ret x
  | None => Raise (KeyError k)
  end.

(** [status_code == 200]. *)
Definition is_200 (status : ival) : bool :=
  match status with
  | IInt z => Z.eqb z 200
  | IStr _ => false
  end.

(** [path[0] == '/'] followed by [path[1:]], as [_url_builder] does it. *)
Definition strip_leading_slash (path : string) : result string :=
  match path with
  | EmptyString => Raise IndexError
  | String c rest => if Ascii.eqb c "/"%char then Ret rest else Ret path
  end.

(** ** The module on its interpreter

    [json.loads], the text of an exception, [AnsibleModule.jsonify], the
    [repr] of a list or dict and the network behind [fetch_url] are not
    code of the module; the development is parametric in them. *)
Section Module.

(** [json.loads] on a text: [None] when it raises [ValueError].  The
    decoder's other ways to fail (a [RecursionError] on a text nested
    beyond the interpreter's limit) are outside this model: what is proved
    of a text is proved of a text the decoder accepts or rejects. *)
Variable loads : string -> option json.

(** [str(e)]. *)
Variable str_exn : exn -> string.

(** [module.jsonify(data)]; [None] is the absent [data]. *)
Variable jsonify : option json -> string.

(** [str(v)] for a decoded list or dict. *)
Variable repr_container : json -> string.

(** [fetch_url(module, url, data=, headers=, method=)]: the transport
    response, here the text its [read()] gives, or [None], and [info];
    or the exception or exit that the call ends in. *)
Variable fetch_url : request -> result (option string * gmap string ival).

(** [json.loads(x)] for a value of [info]. *)
Definition json_loads (x : ival) : result json :=
  match x with
  | IStr doc =>
      match loads doc with
      | Some v => Ret v
      | None => Raise (ValueError doc)
      end
  | IInt _ => Raise (TypeError (LoadsArgument x))
  end.

(** ["{}".format(x)] for a value of [info]. *)
Definition format_ival (x : ival) : string :=
  match x with
  | IInt z => pretty z
  | IStr s => s
  end.

(** ["{}".format(v)] for a decoded value. *)
Definition format_json (v : json) : string :=
  match v with
  | JNull => "None"
  | JBool true => "True"
  | JBool false => "False"
  | JInt z => pretty z
  | JStr s => s
  | JArr _ | JObj _ => repr_container v
  end.

(** *** class Response *)

Record Response : Type := mkResponse {
  body : option string;
  info : gmap string ival
}.

(** [Response.__init__(self, resp, info)]. *)
Definition Response_init (resp : option string) (info : gmap string ival)
  : Response :=
  let body := None in
  let body := match resp with Some r => Some r | None => body end in
  mkResponse body info.

(** [Response.json]. *)
Definition Response_json (self : Response) : result json :=
  if negb (truthy (body self)) then
    match info self !! "body" with
    | Some x => json_loads x
    | None => Ret JNull
    end
  else
    match body self with
    | Some doc =>
        match loads doc with
        | Some v => Ret v
        | None => Ret JNull       (* except ValueError: return None *)
        end
    | None => Ret JNull           (* not reached: [None] is not truthy *)
    end.

(** [Response.status_code]. *)
Definition Response_status_code (self : Response) : result ival :=
  info_get (info self) "status".

(** *** class Rest *)

Record AnsibleModule : Type := mkModule {
  params : gmap string string
}.

Record Rest : Type := mkRest {
  module : AnsibleModule;
  headers : gmap string string;
  baseurl : string
}.

(** [Rest.__init__(self, module, headers)]. *)
Definition Rest_init (module : AnsibleModule) (headers : gmap string string)
  : Rest :=
  mkRest module headers "https://api.digitalocean.com/v2".

(** [Rest._url_builder(self, path)]. *)
Definition Rest_url_builder (self : Rest) (path : string) : result string :=
  match strip_leading_slash path with
  | Ret path => Ret (baseurl self ++ "/" ++ path)
  | Raise e => Raise e
  | Exit o => Exit o
  end.

(** The [fetch_url] call: the request is logged, then answered. *)
Definition call_fetch_url (req : request)
  : M (option string * gmap string ival) :=
  fun log => (fetch_url req, (log ++ [req])%list).

(** [Rest.send(self, method, path, data=None, headers=None)].  The
    parameter [headers'] is the per-call [headers]. *)
Definition Rest_send (self : Rest) (method path : string)
    (data : option json) (headers' : option (gmap string string))
  : M Response :=
  url <- lift (Rest_url_builder self path) ;;
  let data := jsonify data in
  ri <- call_fetch_url (Request url data (headers self) method) ;;
  ret (Response_init (fst ri) (snd ri)).

Definition Rest_get (self : Rest) (path : string)
    (data : option json) (headers' : option (gmap string string))
  : M Response :=
  Rest_send self "GET" path data headers'.

Definition Rest_put (self : Rest) (path : string)
    (data : option json) (headers' : option (gmap string string))
  : M Response :=
  Rest_send self "PUT" path data headers'.

Definition Rest_post (self : Rest) (path : string)
    (data : option json) (headers' : option (gmap string string))
  : M Response :=
  Rest_send self "POST" path data headers'.

Definition Rest_delete (self : Rest) (path : string)
    (data : option json) (headers' : option (gmap string string))
  : M Response :=
  Rest_send self "DELETE" path data headers'.

(** *** core and main *)

(** [module.params[k]]. *)
Definition params_get (m : AnsibleModule) (k : string) : result string :=
  match params m !! k with
  | Some x => Ret x
  | None => Raise (KeyError k)
  end.

Definition exit_json {A} (changed : bool) (data : json) : M A :=
  lift (Exit (ExitJson changed data)).

Definition fail_json {A} (msg : string) : M A :=
  lift (Exit (FailJson msg)).

(** The headers [core] configures the client with. *)
Definition core_headers (api_token : string) : gmap string string :=
  {[ "Authorization" := "Bearer " ++ api_token;
     "Content-type" := "application/json" ]}.

(** ["Error fecthing facts [{}: {}]".format(status_code, message)]. *)
Definition error_message (status_code : ival) (message : json) : string :=
  "Error fecthing facts [" ++ format_ival status_code ++ ": "
    ++ format_json message ++ "]".

(** [core(module)]. *)
Definition core (m : AnsibleModule) : M unit :=
  api_token <- lift (params_get m "oauth_token") ;;
  let rest := Rest_init m (core_headers api_token) in
  response <- Rest_get rest "floating_ips?page=1&per_page=20" None None ;;
  status_code <- lift (Response_status_code response) ;;
  json <- lift (Response_json response) ;;
  if is_200 status_code then
    exit_json false json
  else
    json' <- lift (Response_json response) ;;
    message <- lift (getitem json' "message") ;;
    fail_json (error_message status_code message).

(** The one request of [core], as its code builds it. *)
Definition core_request (api_token : string) : request :=
  Request "https://api.digitalocean.com/v2/floating_ips?page=1&per_page=20"
          (jsonify None) (core_headers api_token) "GET".

(** The body of [main()] once [AnsibleModule(...)] has built [m]: the
    [try] around [core].  The construction itself is the host library's;
    with [required=True] it ends the process on a missing token, so the
    module that reaches the [try] holds [oauth_token]. *)
Definition main (m : AnsibleModule) : M unit :=
  try_except (core m) (fun e => fail_json (str_exn e)).

End Module.

(** ** [Response] as an object

    A [Response] is an object with the attributes [body] and [info], built
    from a transport response that is a file-like object: what [read()]
    has returned is gone from it.  The accessor [json] is written again
    here as a program over these objects, one attribute read after the
    other, so that what an access does to them can be stated. *)

(** A file-like object: the text not read yet. *)
Record filelike : Type := mkFile { unread : string }.

(** [resp.read()]: all that is left, and nothing is left after it. *)
Definition filelike_read (f : filelike) : string * filelike :=
  (unread f, mkFile "").

(** The objects of one exchange: the transport response, if there is one,
    and the attributes of the wrapper. *)
Record objects : Type := mkObjects {
  obj_resp : option filelike;
  obj_self : Response
}.

(** A computation over the objects. *)
Definition OM (A : Type) : Type := objects -> result A * objects.

Definition retO {A} (a : A) : OM A := fun o => (Ret a, o).

Definition bindO {A B} (c : OM A) (k : A -> OM B) : OM B :=
  fun o =>
    match c o with
    | (Ret a, o') => k a o'
    | (Raise e, o') => (Raise e, o')
    | (Exit x, o') => (Exit x, o')
    end.

Definition liftO {A} (r : result A) : OM A := fun o => (r, o).

Notation "x <~ c ;; k" := (bindO c (fun x => k))
  (at level 100, c at next level, right associativity) : py_scope.

(** The attribute reads [self.body] and [self.info]. *)
Definition self_body : OM (option string) :=
  fun o => (Ret (body (obj_self o)), o).

Definition self_info : OM (gmap string ival) :=
  fun o => (Ret (info (obj_self o)), o).

(** [Response.__init__(self, resp, info)], with the [read()] on the
    transport response. *)
Definition Response_init_objects (resp : option filelike)
    (info : gmap string ival) : objects :=
  let body := None in
  match resp with
  | Some f =>
      let '(text, f') := filelike_read f in
      mkObjects (Some f') (mkResponse (Some text) info)
  | None => mkObjects None (mkResponse body info)
  end.

Section Objects.

Variable loads : string -> option json.

(** [Response.json] over the objects: [self.body] is read for the test
    and again for the decoder, [self.info] for the membership test and
    again for the item. *)
Definition Response_json_objects : OM json :=
  body <~ self_body ;;
  if negb (truthy body) then
    info <~ self_info ;;
    match info !! "body" with
    | Some _ =>
        info' <~ self_info ;;
        x <~ liftO (info_get info' "body") ;;
        liftO (json_loads loads x)
    | None => retO JNull
    end
  else
    body' <~ self_body ;;
    match body' with
    | Some doc =>
        match loads doc with
        | Some v => retO v
        | None => retO JNull        (* except ValueError: return None *)
        end
    | None => retO JNull            (* not reached: [None] is not truthy *)
    end.

End Objects.


(** [s] between double quotes. *)
Definition quoted (s : string) : string :=
  String "034"%char (s ++ String "034"%char EmptyString).

(** ** An interpreter for the worked examples

    The examples below run the module on a decoder, on exception texts and
    on serialisers that follow CPython 3 on the documents they meet.  The
    theorems do not depend on them: they hold for every interpreter. *)
Module CPython.

(** *** [json.loads] on a fragment of JSON

    The fragment has no fractions, exponents, [NaN], [Infinity] or
    [\u] escapes.  On a document built from anything else the decoder
    follows [json.loads]; outside the fragment it answers [None]. *)

Definition is_ws (c : ascii) : bool :=
  match c with
  | " "%char | "009"%char | "010"%char | "013"%char => true
  | _ => false
  end.

Fixpoint skip_ws (s : string) : string :=
  match s with
  | String c rest => if is_ws c then skip_ws rest else s
  | EmptyString => s
  end.

Definition digit_of (c : ascii) : option Z :=
  let n := Z.of_nat (nat_of_ascii c) in
  if ((48 <=? n) && (n <=? 57))%Z then Some (n - 48)%Z else None.

(** The digits that follow the first one. *)
Fixpoint scan_digits (s : string) (acc : Z) : Z * string :=
  match s with
  | String c rest =>
      match digit_of c with
      | Some d => scan_digits rest (10 * acc + d)%Z
      | None => (acc, s)
      end
  | EmptyString => (acc, s)
  end.

(** [0] or a non-zero digit and more digits; a [.], [e] or [E] next
    would start a fraction or an exponent. *)
Definition scan_nat (s : string) : option (Z * string) :=
  match s with
  | String c rest =>
      match digit_of c with
      | Some d =>
          let '(n, rest') :=
            if (d =? 0)%Z then (0%Z, rest) else scan_digits rest d in
          match rest' with
          | String "."%char _ | String "e"%char _ | String "E"%char _ => None
          | _ => Some (n, rest')
          end
      | None => None
      end
  | EmptyString => None
  end.

Definition unescape (c : ascii) : option ascii :=
  match c with
  | "034"%char => Some "034"%char
  | "\"%char => Some "\"%char
  | "/"%char => Some "/"%char
  | "b"%char => Some "008"%char
  | "f"%char => Some "012"%char
  | "n"%char => Some "010"%char
  | "r"%char => Some "013"%char
  | "t"%char => Some "009"%char
  | _ => None
  end.

(** The text after an opening quote, up to the closing one; a control
    character is refused, as the strict decoder does. *)
Fixpoint scan_string (s : string) : option (string * string) :=
  match s with
  | EmptyString => None
  | String "034"%char rest => Some (EmptyString, rest)
  | String "\"%char (String c rest) =>
      match unescape c, scan_string rest with
      | Some c', Some (t, rest') => Some (String c' t, rest')
      | _, _ => None
      end
  | String "\"%char EmptyString => None
  | String c rest =>
      if (nat_of_ascii c <? 32)%nat then None
      else match scan_string rest with
           | Some (t, rest') => Some (String c t, rest')
           | None => None
           end
  end.

(** [d[k] = v] on the items of a [dict]: a key met again keeps its place
    and takes the new value. *)
Fixpoint dict_set (items : list (string * json)) (k : string) (v : json)
  : list (string * json) :=
  match items with
  | [] => [(k, v)]
  | (k', v') :: rest =>
      if String.eqb k' k then (k', v) :: rest
      else (k', v') :: dict_set rest k v
  end.

(** One value, and the text left after it. *)
Fixpoint scan_value (fuel : nat) (s : string) : option (json * string) :=
  match fuel with
  | O => None
  | S fuel =>
      match s with
      | String "n" (String "u" (String "l" (String "l" rest))) =>
          Some (JNull, rest)
      | String "t" (String "r" (String "u" (String "e" rest))) =>
          Some (JBool true, rest)
      | String "f" (String "a" (String "l" (String "s" (String "e" rest)))) =>
          Some (JBool false, rest)
      | String "034"%char rest =>
          match scan_string rest with
          | Some (t, rest') => Some (JStr t, rest')
          | None => None
          end
      | String "["%char rest =>
          match skip_ws rest with
          | String "]"%char rest' => Some (JArr [], rest')
          | rest' =>
              match scan_items fuel rest' with
              | Some (items, rest'') => Some (JArr items, rest'')
              | None => None
              end
          end
      | String "{"%char rest =>
          match skip_ws rest with
          | String "}"%char rest' => Some (JObj [], rest')
          | rest' =>
              match scan_pairs fuel rest' [] with
              | Some (items, rest'') => Some (JObj items, rest'')
              | None => None
              end
          end
      | String "-"%char rest =>
          match scan_nat rest with
          | Some (n, rest') => Some (JInt (- n)%Z, rest')
          | None => None
          end
      | _ =>
          match scan_nat s with
          | Some (n, rest') => Some (JInt n, rest')
          | None => None
          end
      end
  end

(** The values of a list after [[], up to and with []]. *)
with scan_items (fuel : nat) (s : string) : option (list json * string) :=
  match fuel with
  | O => None
  | S fuel =>
      match scan_value fuel s with
      | Some (v, rest) =>
          match skip_ws rest with
          | String "]"%char rest' => Some ([v], rest')
          | String ","%char rest' =>
              match scan_items fuel (skip_ws rest') with
              | Some (vs, rest'') => Some (v :: vs, rest'')
              | None => None
              end
          | _ => None
          end
      | None => None
      end
  end

(** The pairs of an object after [{], up to and with [}]. *)
with scan_pairs (fuel : nat) (s : string) (acc : list (string * json))
  : option (list (string * json) * string) :=
  match fuel with
  | O => None
  | S fuel =>
      match s with
      | String "034"%char rest =>
          match scan_string rest with
          | Some (k, rest') =>
              match skip_ws rest' with
              | String ":"%char rest'' =>
                  match scan_value fuel (skip_ws rest'') with
                  | Some (v, rest3) =>
                      let acc := dict_set acc k v in
                      match skip_ws rest3 with
                      | String "}"%char rest4 => Some (acc, rest4)
                      | String ","%char rest4 =>
                          scan_pairs fuel (skip_ws rest4) acc
                      | _ => None
                      end
                  | None => None
                  end
              | _ => None
              end
          | None => None
          end
      | _ => None
      end
  end.

(** [json.loads(doc)] on the fragment: one value between optional white
    space, and nothing after it. *)
Definition loads (doc : string) : option json :=
  match scan_value (S (2 * String.length doc)) (skip_ws doc) with
  | Some (v, rest) =>
      match skip_ws rest with
      | EmptyString => Some v
      | _ => None
      end
  | None => None
  end.

(** *** Texts and serialisers *)

Definition hex_digit (n : nat) : ascii :=
  match String.get n "0123456789abcdef" with
  | Some c => c
  | None => "0"%char
  end.

Definition hex2 (c : ascii) : string :=
  let n := nat_of_ascii c in
  String (hex_digit (n / 16)) (String (hex_digit (n mod 16)) EmptyString).

Fixpoint contains (c : ascii) (s : string) : bool :=
  match s with
  | EmptyString => false
  | String c' rest => Ascii.eqb c c' || contains c rest
  end.

(** The inside of [repr(s)] between quotes [q], for ASCII text. *)
Fixpoint repr_chars (q : ascii) (s : string) : string :=
  match s with
  | EmptyString => EmptyString
  | String c rest =>
      let n := nat_of_ascii c in
      (if Ascii.eqb c "\"%char then "\\"
       else if Ascii.eqb c q then String "\"%char (String q EmptyString)
       else if Ascii.eqb c "010"%char then "\n"
       else if Ascii.eqb c "013"%char then "\r"
       else if Ascii.eqb c "009"%char then "\t"
       else if (n <? 32)%nat || (n =? 127)%nat then "\x" ++ hex2 c
       else String c EmptyString) ++ repr_chars q rest
  end.

(** [repr(s)] for a text: single quotes, unless the text has one and has
    no double quote. *)
Definition repr_str (s : string) : string :=
  let q := if contains "'"%char s && negb (contains "034"%char s)
           then "034"%char else "'"%char in
  String q (repr_chars q s ++ String q EmptyString).

(** [repr(v)] for a decoded value. *)
Fixpoint repr (v : json) : string :=
  match v with
  | JNull => "None"
  | JBool true => "True"
  | JBool false => "False"
  | JInt z => pretty z
  | JStr s => repr_str s
  | JArr items =>
      "[" ++ (fix each (l : list json) : string :=
                match l with
                | [] => ""
                | [x] => repr x
                | x :: l' => repr x ++ ", " ++ each l'
                end) items ++ "]"
  | JObj items =>
      "{" ++ (fix each (l : list (string * json)) : string :=
                match l with
                | [] => ""
                | [(k, x)] => repr_str k ++ ": " ++ repr x
                | (k, x) :: l' => repr_str k ++ ": " ++ repr x ++ ", " ++ each l'
                end) items ++ "}"
  end.

(** The inside of a JSON text literal, for ASCII text. *)
Fixpoint dumps_chars (s : string) : string :=
  match s with
  | EmptyString => EmptyString
  | String c rest =>
      (if Ascii.eqb c "034"%char then String "\"%char (String "034"%char EmptyString)
       else if Ascii.eqb c "\"%char then "\\"
       else if Ascii.eqb c "010"%char then "\n"
       else if Ascii.eqb c "013"%char then "\r"
       else if Ascii.eqb c "009"%char then "\t"
       else if Ascii.eqb c "008"%char then "\b"
       else if Ascii.eqb c "012"%char then "\f"
       else if (nat_of_ascii c <? 32)%nat || (nat_of_ascii c =? 127)%nat
            then "\u00" ++ hex2 c
       else String c EmptyString) ++ dumps_chars rest
  end.

Definition dumps_str (s : string) : string := quoted (dumps_chars s).

(** [json.dumps(v)]. *)
Fixpoint dumps (v : json) : string :=
  match v with
  | JNull => "null"
  | JBool true => "true"
  | JBool false => "false"
  | JInt z => pretty z
  | JStr s => dumps_str s
  | JArr items =>
      "[" ++ (fix each (l : list json) : string :=
                match l with
                | [] => ""
                | [x] => dumps x
                | x :: l' => dumps x ++ ", " ++ each l'
                end) items ++ "]"
  | JObj items =>
      "{" ++ (fix each (l : list (string * json)) : string :=
                match l with
                | [] => ""
                | [(k, x)] => dumps_str k ++ ": " ++ dumps x
                | (k, x) :: l' => dumps_str k ++ ": " ++ dumps x ++ ", " ++ each l'
                end) items ++ "}"
  end.

(** [AnsibleModule.jsonify(data)] is [json.dumps(data)]. *)
Definition jsonify (data : option json) : string :=
  match data with
  | None => dumps JNull
  | Some v => dumps v
  end.

Definition type_name (v : json) : string :=
  match v with
  | JNull => "NoneType"
  | JBool _ => "bool"
  | JInt _ => "int"
  | JStr _ => "str"
  | JArr _ => "list"
  | JObj _ => "dict"
  end.

(** [str(e)].  Of a rejected document the text is that of a document
    that begins no value, as the rejected documents of the examples do. *)
Definition str_exn (e : exn) : string :=
  match e with
  | KeyError k => repr_str k
  | ValueError _ => "Expecting value: line 1 column 1 (char 0)"
  | TypeError (NotSubscriptable v) =>
      "'" ++ type_name v ++ "' object is not subscriptable"
  | TypeError (BadIndex (JArr _) _) =>
      "list indices must be integers or slices, not str"
  | TypeError (BadIndex _ _) => "string indices must be integers"
  | TypeError (LoadsArgument _) =>
      "the JSON object must be str, bytes or bytearray, not int"
  | IndexError => "string index out of range"
  | TransportError text => text
  end.

End CPython.

(** ** Worked examples: modules, transports and responses *)
Module Examples.

(** The module of an invocation with [oauth_token=abc123]. *)
Definition module_abc123 : AnsibleModule :=
  mkModule {[ "oauth_token" := "abc123" ]}.

(** A transport that answers every request alike. *)
Definition answer (resp : option string) (info : gmap string ival)
  : request -> result (option string * gmap string ival) :=
  fun _ => Ret (resp, info).

(** Status 200 with an empty listing. *)
Definition api_ok : request -> result (option string * gmap string ival) :=
  answer (Some ("{" ++ quoted "floating_ips" ++ ": [], " ++ quoted "meta"
                   ++ ": {" ++ quoted "total" ++ ": 0}}"))
         {[ "status" := IInt 200; "msg" := IStr "OK (unknown bytes)" ]}.

(** Status 401: no transport response, the error body kept in [info]. *)
Definition api_unauthorized
  : request -> result (option string * gmap string ival) :=
  answer None
         {[ "status" := IInt 401;
            "msg" := IStr "HTTP Error 401: Unauthorized";
            "body" := IStr ("{" ++ quoted "message" ++ ": "
                                 ++ quoted "Unauthorized" ++ "}") ]}.

(** Status 500 and nothing to decode. *)
Definition api_down : request -> result (option string * gmap string ival) :=
  answer None
         {[ "status" := IInt 500;
            "msg" := IStr "HTTP Error 500: Internal Server Error" ]}.

(** Status 200, an empty body, and a [Body] response header, which the
    transport stores lower-cased in [info]. *)
Definition api_body_header
  : request -> result (option string * gmap string ival) :=
  answer (Some "") {[ "status" := IInt 200; "body" := IStr "<html>" ]}.

(** A transport that raises. *)
Definition api_raises : request -> result (option string * gmap string ival) :=
  fun _ => Raise (TransportError "timed out").

(** No transport response; the error body in [info] is a JSON text. *)
Definition response_fallback : Response :=
  mkResponse None {[ "status" := IInt 404;
                     "body" := IStr ("{" ++ quoted "message" ++ ": "
                                          ++ quoted "Not found" ++ "}") ]}.

(** No transport response; the error body in [info] is not JSON. *)
Definition response_fallback_html : Response :=
  mkResponse None {[ "status" := IInt 502; "body" := IStr "<html>" ]}.

(** A body that is not JSON. *)
Definition response_html : Response :=
  mkResponse (Some "<html>") {[ "status" := IInt 502 ]}.

(** Neither a body nor an error body. *)
Definition response_empty : Response :=
  mkResponse None {[ "status" := IInt 500 ]}.

(** A client with one default header, and a per-call override. *)
Definition rest_one_header : Rest :=
  Rest_init module_abc123 {[ "Authorization" := "Bearer abc123" ]}.

Definition override_accept : gmap string string :=
  {[ "Accept" := "text/plain" ]}.

(** An answer whose [info] has no [status]. *)
Definition api_no_status : request -> result (option string * gmap string ival) :=
  answer None {[ "msg" := IStr "Request failed" ]}.

(** Status 200 with a page that is not JSON. *)
Definition api_html_page : request -> result (option string * gmap string ival) :=
  answer (Some "<html>") {[ "status" := IInt 200 ]}.

(** Status 502 with an error body that is not JSON. *)
Definition api_bad_gateway
  : request -> result (option string * gmap string ival) :=
  answer None {[ "status" := IInt 502; "body" := IStr "<html>" ]}.

(** Status 404 with an error object that has no [message]. *)
Definition api_no_message
  : request -> result (option string * gmap string ival) :=
  answer None
         {[ "status" := IInt 404;
            "body" := IStr ("{" ++ quoted "id" ++ ": "
                                 ++ quoted "not_found" ++ "}") ]}.

(** A transport response that holds the empty listing, not read yet. *)
Definition file_listing : filelike :=
  mkFile ("{" ++ quoted "floating_ips" ++ ": [], " ++ quoted "meta"
            ++ ": {" ++ quoted "total" ++ ": 0}}").

(** A transport that ends the process itself, as [fetch_url] does when
    it cannot validate a certificate. *)
Definition api_exits : request -> result (option string * gmap string ival) :=
  fun _ => Exit (FailJson "Failed to validate the SSL certificate").

End Examples.

(** * Properties *)

(** ** The [Response] adapter *)
Section ResponseProperties.

Variable loads : string -> option json.

(** A body that is [None] or empty is not truthy, and conversely. *)
Lemma truthy_false (b : option string) :
  truthy b = false <-> b = None \/ b = Some "".
Proof.
  destruct b as [[|c s]|]; simpl; split; intros H; auto.
  - discriminate.
  - destruct H as [H|H]; discriminate.
Qed.

(** With a body that is not truthy, [json] is decided by [info] alone. *)
Lemma Response_json_fallback (self : Response) :
  truthy (body self) = false ->
  Response_json loads self =
    match info self !! "body" with
    | Some x => json_loads loads x
    | None => Ret JNull
    end.
Proof.
  intros H. unfold Response_json. rewrite H. reflexivity.
Qed.

(** With a truthy body, [json] is decided by the body alone and returns. *)
Lemma Response_json_body (self : Response) (doc : string) :
  body self = Some doc -> doc <> "" ->
  Response_json loads self =
    match loads doc with
    | Some v => Ret v
    | None => Ret JNull
    end.
Proof.
  intros Hb Hne. unfold Response_json. rewrite Hb.
  destruct doc as [|c s]; [congruence|]. reflexivity.
Qed.

(** C8: when the body is empty or absent and [info] holds a [body] field
    with valid JSON text, [json] returns the value decoded from that
    field; when [info] has no [body] field, it returns [None]. *)
Theorem json_fallback_path (self : Response) :
  truthy (body self) = false ->
  (forall doc v,
      info self !! "body" = Some (IStr doc) -> loads doc = Some v ->
      Response_json loads self = Ret v)
  /\ (info self !! "body" = None -> Response_json loads self = Ret JNull).
Proof.
  intros H. rewrite (Response_json_fallback self H). split.
  - intros doc v Hi Hl. rewrite Hi. simpl. rewrite Hl. reflexivity.
  - intros Hi. rewrite Hi. reflexivity.
Qed.

(** C3, as amended: a body that is present, not empty and not valid JSON
    makes [json] return [None] without raising, whatever [info] holds;
    a body that is empty or absent does so when [info] has no [body]
    field. *)
Theorem json_soft_failure (self : Response) :
  (forall doc,
      body self = Some doc -> doc <> "" -> loads doc = None ->
      Response_json loads self = Ret JNull)
  /\ (truthy (body self) = false -> info self !! "body" = None ->
      Response_json loads self = Ret JNull).
Proof.
  split.
  - intros doc Hb Hne Hl.
    rewrite (Response_json_body self doc Hb Hne), Hl. reflexivity.
  - intros Ht Hi. rewrite (Response_json_fallback self Ht), Hi. reflexivity.
Qed.

(** Over the objects, an access returns what [Response_json] computes
    from the attributes, and leaves the objects as they were. *)
Lemma Response_json_objects_spec (o : objects) :
  Response_json_objects loads o = (Response_json loads (obj_self o), o).
Proof.
  unfold Response_json_objects, Response_json, bindO, self_body, self_info,
    liftO, retO.
  destruct (truthy (body (obj_self o))); simpl.
  - destruct (body (obj_self o)) as [doc|]; [|reflexivity].
    destruct (loads doc); reflexivity.
  - destruct (info (obj_self o) !! "body") as [x|] eqn:Hi; [|reflexivity].
    unfold info_get. rewrite Hi. destruct (json_loads loads x); reflexivity.
Qed.

(** C10: an access of [json] only reads [self.body] and [self.info]: it
    leaves the wrapper and the transport response as they were, so that a
    second access ends as the first did, in the result that the body and
    [info] determine: the decoded body when it is not empty, the decoded
    [body] entry of [info] otherwise.  After the construction from a
    transport response the text is held by the wrapper: both accesses
    decode it although nothing is left to read. *)
Theorem json_access_idempotent :
  (forall o : objects,
      let first := Response_json_objects loads o in
      let second := Response_json_objects loads (snd first) in
      snd first = o /\ snd second = o
      /\ fst second = fst first
      /\ fst first = Response_json loads (obj_self o)
      /\ (forall doc v,
             body (obj_self o) = Some doc -> doc <> "" ->
             loads doc = Some v ->
             fst first = Ret v /\ fst second = Ret v)
      /\ (forall doc v,
             truthy (body (obj_self o)) = false ->
             info (obj_self o) !! "body" = Some (IStr doc) ->
             loads doc = Some v ->
             fst first = Ret v /\ fst second = Ret v))
  /\ (forall (f : filelike) (i : gmap string ival) (v : json),
         unread f <> "" -> loads (unread f) = Some v ->
         let o := Response_init_objects (Some f) i in
         let first := Response_json_objects loads o in
         let second := Response_json_objects loads (snd first) in
         obj_resp o = Some (mkFile "")
         /\ fst first = Ret v /\ fst second = Ret v
         /\ obj_resp (snd second) = Some (mkFile "")).
Proof.
  split.
  - intros o first second. subst second first.
    rewrite !Response_json_objects_spec. simpl fst. simpl snd.
    split; [reflexivity|]. split; [reflexivity|].
    split; [reflexivity|]. split; [reflexivity|]. split.
    + intros doc v Hb Hne Hl.
      rewrite (Response_json_body (obj_self o) doc Hb Hne), Hl.
      split; reflexivity.
    + intros doc v Ht Hi Hl.
      rewrite (Response_json_fallback (obj_self o) Ht), Hi. simpl.
      rewrite Hl. split; reflexivity.
  - intros f i v Hne Hl o first second. subst second first.
    rewrite !Response_json_objects_spec. simpl fst. simpl snd.
    subst o. unfold Response_init_objects. simpl.
    rewrite (Response_json_body (mkResponse (Some (unread f)) i)
               (unread f) eq_refl Hne), Hl.
    repeat split.
Qed.

End ResponseProperties.

(** ** The [Rest] client *)
Section RestProperties.

Variable jsonify : option json -> string.
Variable fetch_url : request -> result (option string * gmap string ival).

(** [_url_builder] on a path that is not empty: the base, a slash, and
    the path less one leading slash. *)
Lemma Rest_url_builder_spec (self : Rest) (c : ascii) (path : string) :
  Rest_url_builder self (String c path) =
    Ret (baseurl self ++ "/"
           ++ (if Ascii.eqb c "/"%char then path else String c path)).
Proof.
  unfold Rest_url_builder, strip_leading_slash.
  destruct (Ascii.eqb c "/"%char); reflexivity.
Qed.

(** [send] in one step: the URL, then the logged request with the
    client's own headers, then the wrapped answer. *)
Lemma Rest_send_unfold (self : Rest) (method path : string)
    (data : option json) (h : option (gmap string string))
    (log : list request) :
  Rest_send jsonify fetch_url self method path data h log =
    match Rest_url_builder self path with
    | Ret url =>
        let req := Request url (jsonify data) (headers self) method in
        match fetch_url req with
        | Ret ri => (Ret (Response_init (fst ri) (snd ri)), (log ++ [req])%list)
        | Raise e => (Raise e, (log ++ [req])%list)
        | Exit o => (Exit o, (log ++ [req])%list)
        end
    | Raise e => (Raise e, log)
    | Exit o => (Exit o, log)
    end.
Proof.
  unfold Rest_send, bind, lift, call_fetch_url, ret.
  destruct (Rest_url_builder self path) as [url|e|o]; reflexivity.
Qed.

(** C7, as amended: [send] and its aliases [get], [put], [post] and
    [delete] do the same with and without per-call headers, and a request
    they issue carries exactly the headers the client was configured
    with. *)
Theorem send_ignores_call_headers (self : Rest) (method path : string)
    (data : option json) (h : option (gmap string string))
    (log : list request) :
  Rest_send jsonify fetch_url self method path data h
    = Rest_send jsonify fetch_url self method path data None
  /\ Rest_get jsonify fetch_url self path data h
       = Rest_send jsonify fetch_url self "GET" path data None
  /\ Rest_put jsonify fetch_url self path data h
       = Rest_send jsonify fetch_url self "PUT" path data None
  /\ Rest_post jsonify fetch_url self path data h
       = Rest_send jsonify fetch_url self "POST" path data None
  /\ Rest_delete jsonify fetch_url self path data h
       = Rest_send jsonify fetch_url self "DELETE" path data None
  /\ (snd (Rest_send jsonify fetch_url self method path data h log) = log
      \/ exists req,
           snd (Rest_send jsonify fetch_url self method path data h log)
             = (log ++ [req])%list
           /\ req_headers req = headers self
           /\ req_method req = method).
Proof.
  repeat split.
  rewrite Rest_send_unfold.
  destruct (Rest_url_builder self path) as [url|e|o]; [|left; reflexivity..].
  right. exists (Request url (jsonify data) (headers self) method).
  cbv zeta. destruct (fetch_url _) as [ri|e|o]; repeat split.
Qed.

End RestProperties.

(** ** [core] and [main] *)
Section CoreProperties.

Variable loads : string -> option json.
Variable str_exn : exn -> string.
Variable jsonify : option json -> string.
Variable repr_container : json -> string.
Variable fetch_url : request -> result (option string * gmap string ival).

Local Abbreviation core' := (core loads jsonify repr_container fetch_url).
Local Abbreviation main' := (main loads str_exn jsonify repr_container fetch_url).
Local Abbreviation request' := (core_request jsonify).

(** What [core] does with the wrapped answer of the transport. *)
Local Abbreviation branch response :=
  (match Response_status_code response with
   | Ret status_code =>
       match Response_json loads response with
       | Ret json =>
           if is_200 status_code then Exit (ExitJson false json)
           else
             match getitem json "message" with
             | Ret message =>
                 Exit (FailJson
                         (error_message repr_container status_code message))
             | Raise e => Raise e
             | Exit o => Exit o
             end
       | Raise e => Raise e
       | Exit o => Exit o
       end
   | Raise e => Raise e
   | Exit o => Exit o
   end).

(** The URL of the listing, as [_url_builder] builds it for [core]. *)
Lemma core_url (m : AnsibleModule) (h : gmap string string) :
  Rest_url_builder (Rest_init m h) "floating_ips?page=1&per_page=20"
  = Ret "https://api.digitalocean.com/v2/floating_ips?page=1&per_page=20".
Proof. reflexivity. Qed.

(** Without a token [core] raises before any request. *)
Lemma core_without_token (m : AnsibleModule) (log : list request) :
  params m !! "oauth_token" = None ->
  core' m log = (Raise (KeyError "oauth_token"), log).
Proof.
  intros H. unfold core, bind, lift, params_get. rewrite H. reflexivity.
Qed.

(** With a token [core] issues its one request, and its result is that
    of the transport or the branch on the wrapped answer. *)
Lemma core_unfold (m : AnsibleModule) (tok : string) (log : list request) :
  params m !! "oauth_token" = Some tok ->
  core' m log =
    (match fetch_url (request' tok) with
     | Ret ri => branch (Response_init (fst ri) (snd ri))
     | Raise e => Raise e
     | Exit o => Exit o
     end, (log ++ [request' tok])%list).
Proof.
  intros H. unfold core. unfold bind at 1. unfold lift at 1.
  unfold params_get. rewrite H. unfold bind at 1.
  unfold Rest_get. rewrite Rest_send_unfold, core_url. cbv zeta.
  change (Request _ _ _ _) with (request' tok).
  destruct (fetch_url (request' tok)) as [[resp i]|e|o]; try reflexivity.
  unfold bind, lift, exit_json, fail_json. simpl fst; simpl snd.
  destruct (Response_status_code _) as [st|e|o]; try reflexivity.
  destruct (Response_json loads _) as [j|e|o]; try reflexivity.
  destruct (is_200 st); try reflexivity.
  destruct (getitem j "message"); reflexivity.
Qed.

(** [status_code == 200] fails exactly on a status other than the integer
    200. *)
Lemma is_200_false (st : ival) : st <> IInt 200 -> is_200 st = false.
Proof.
  destruct st as [z|t]; simpl; [|reflexivity].
  intros H. apply Z.eqb_neq. congruence.
Qed.

(** [core] never returns to its caller: it exits or raises. *)
Lemma core_exits_or_raises (m : AnsibleModule) (log : list request) :
  (exists e, fst (core' m log) = Raise e)
  \/ (exists o, fst (core' m log) = Exit o).
Proof.
  destruct (params m !! "oauth_token") as [tok|] eqn:H.
  - rewrite (core_unfold m tok log H). simpl fst.
    destruct (fetch_url (request' tok)) as [[resp i]|e|o]; eauto.
    destruct (Response_status_code _) as [st|e|o]; eauto.
    destruct (Response_json loads _) as [j|e|o]; eauto.
    destruct (is_200 st); eauto.
    destruct (getitem j "message"); eauto.
  - rewrite (core_without_token m log H). eauto.
Qed.

(** On a status other than 200 and a decoded object with a [message],
    [core] fails with the text its format string gives. *)
Lemma core_failure_message (m : AnsibleModule) (tok : string)
    (log : list request) (resp : option string) (i : gmap string ival)
    (st : ival) (items : list (string * json)) (message : json) :
  params m !! "oauth_token" = Some tok ->
  fetch_url (request' tok) = Ret (resp, i) ->
  i !! "status" = Some st -> st <> IInt 200 ->
  Response_json loads (Response_init resp i) = Ret (JObj items) ->
  dict_get items "message" = Some message ->
  fst (core' m log)
  = Exit (FailJson ("Error fecthing facts [" ++ format_ival st ++ ": "
                      ++ format_json repr_container message ++ "]")).
Proof.
  intros Ht Hf Hs Hne Hj Hm. rewrite (core_unfold m tok log Ht), Hf.
  simpl fst. simpl snd. unfold Response_status_code, info_get.
  simpl info. rewrite Hs, Hj, (is_200_false st Hne).
  simpl. rewrite Hm. reflexivity.
Qed.

(** C2, as amended: on status 200, when the [json] accessor returns a
    value, [core] exits through [exit_json] with [changed=False] and that
    very value as [data]. *)
Theorem core_success (m : AnsibleModule) (tok : string)
    (log : list request) (resp : option string) (i : gmap string ival)
    (v : json) :
  params m !! "oauth_token" = Some tok ->
  fetch_url (request' tok) = Ret (resp, i) ->
  i !! "status" = Some (IInt 200) ->
  Response_json loads (Response_init resp i) = Ret v ->
  fst (core' m log) = Exit (ExitJson false v).
Proof.
  intros Ht Hf Hs Hj. rewrite (core_unfold m tok log Ht), Hf.
  simpl fst. simpl snd. unfold Response_status_code, info_get.
  simpl info. rewrite Hs, Hj. reflexivity.
Qed.

(** C4: on a status other than 200, when the [json] accessor yields
    [None], building the message raises the [TypeError] of indexing
    [None]; no "Error fecthing facts" failure is produced, and [main]
    reports the text of that [TypeError] instead. *)
Theorem core_failure_on_none (m : AnsibleModule) (tok : string)
    (log : list request) (resp : option string) (i : gmap string ival)
    (st : ival) :
  params m !! "oauth_token" = Some tok ->
  fetch_url (request' tok) = Ret (resp, i) ->
  i !! "status" = Some st -> st <> IInt 200 ->
  Response_json loads (Response_init resp i) = Ret JNull ->
  fst (core' m log) = Raise (TypeError (NotSubscriptable JNull))
  /\ fst (main' m log)
     = Exit (FailJson (str_exn (TypeError (NotSubscriptable JNull)))).
Proof.
  intros Ht Hf Hs Hne Hj.
  assert (Hc : fst (core' m log) = Raise (TypeError (NotSubscriptable JNull))).
  { rewrite (core_unfold m tok log Ht), Hf.
    simpl fst. simpl snd. unfold Response_status_code, info_get.
    simpl info. rewrite Hs, Hj, (is_200_false st Hne). reflexivity. }
  split; [exact Hc|].
  unfold main, try_except. destruct (core' m log) as [r l]. simpl in Hc.
  rewrite Hc. reflexivity.
Qed.

(** C5: whatever the token, the request of [core] carries the header
    [Authorization] with the text [Bearer ] followed by the token, the
    header [Content-type] with [application/json], and no other header. *)
Theorem core_authorization_header (m : AnsibleModule) (tok : string)
    (log : list request) :
  params m !! "oauth_token" = Some tok ->
  exists req,
    snd (core' m log) = (log ++ [req])%list
    /\ req_headers req !! "Authorization" = Some ("Bearer " ++ tok)
    /\ req_headers req !! "Content-type" = Some "application/json"
    /\ (forall k, k <> "Authorization" -> k <> "Content-type" ->
                  req_headers req !! k = None).
Proof.
  intros Ht. exists (request' tok). rewrite (core_unfold m tok log Ht).
  simpl snd. unfold core_request, core_headers. simpl req_headers.
  split; [reflexivity|]. split; [|split].
  - apply lookup_insert_eq.
  - rewrite lookup_insert_ne by discriminate. apply lookup_singleton_eq.
  - intros k H1 H2. rewrite lookup_insert_ne by congruence.
    apply lookup_singleton_ne. congruence.
Qed.

(** C6: [core], and [main] around it, issue exactly one request, a [GET]
    whose URL is the base [https://api.digitalocean.com/v2], a slash and
    the path [floating_ips?page=1&per_page=20]; [_url_builder] joins the
    base and a path with a slash after dropping one leading slash of the
    path, if it has one. *)
Theorem core_issues_one_get (m : AnsibleModule) (tok : string)
    (log : list request) :
  params m !! "oauth_token" = Some tok ->
  (exists req,
      snd (core' m log) = (log ++ [req])%list
      /\ snd (main' m log) = (log ++ [req])%list
      /\ req_method req = "GET"
      /\ req_url req
         = "https://api.digitalocean.com/v2/floating_ips?page=1&per_page=20"
      /\ Ret (req_url req)
         = Rest_url_builder (Rest_init m (core_headers tok))
             "floating_ips?page=1&per_page=20")
  /\ (forall h, baseurl (Rest_init m h) = "https://api.digitalocean.com/v2")
  /\ (forall (self : Rest) (path : string),
         Rest_url_builder self (String "/"%char path)
         = Ret (baseurl self ++ "/" ++ path))
  /\ (forall (self : Rest) (c : ascii) (path : string),
         c <> "/"%char ->
         Rest_url_builder self (String c path)
         = Ret (baseurl self ++ "/" ++ String c path)).
Proof.
  intros Ht. split; [|split; [|split]].
  - exists (request' tok). rewrite (core_unfold m tok log Ht).
    repeat split.
    unfold main, try_except. rewrite (core_unfold m tok log Ht).
    destruct (fetch_url (request' tok)) as [[resp i]|e|o]; try reflexivity.
    destruct (branch (Response_init (resp, i).1 (resp, i).2)); reflexivity.
  - reflexivity.
  - intros self path. rewrite Rest_url_builder_spec. reflexivity.
  - intros self c path Hc. rewrite Rest_url_builder_spec.
    apply Ascii.eqb_neq in Hc. rewrite Hc. reflexivity.
Qed.

(** C9: [main] turns an exception that [core] raises into the failure
    whose [msg] is the text of the exception and lets an exit of [core]
    through; every invocation ends in one [exit_json] or [fail_json]
    result. *)
Theorem main_catches_every_exception (m : AnsibleModule)
    (log : list request) :
  fst (main' m log)
  = match fst (core' m log) with
    | Raise e => Exit (FailJson (str_exn e))
    | r => r
    end
  /\ exists o, fst (main' m log) = Exit o.
Proof.
  assert (Hm : fst (main' m log)
               = match fst (core' m log) with
                 | Raise e => Exit (FailJson (str_exn e))
                 | r => r
                 end).
  { unfold main, try_except. destruct (core' m log) as [[u|e|o] l];
      reflexivity. }
  split; [exact Hm|]. rewrite Hm.
  destruct (core_exits_or_raises m log) as [[e He]|[o Ho]].
  - rewrite He. eauto.
  - rewrite Ho. eauto.
Qed.

End CoreProperties.

(** ** The module at work: worked examples

    The interpreter of [CPython] and the transports of [Examples] put the
    statements above on concrete invocations. *)

(** C1: with the token [abc123] against an API that answers 401 with the
    error body [{"message": "Unauthorized"}], [core] fails with a message
    that begins [Error fecthing facts], which is not the message
    [Error fetching facts [401: Unauthorized]]. *)
Theorem core_error_message_misspelt :
  fst (core CPython.loads CPython.jsonify CPython.repr
         Examples.api_unauthorized Examples.module_abc123 [])
  = Exit (FailJson "Error fecthing facts [401: Unauthorized]")
  /\ fst (core CPython.loads CPython.jsonify CPython.repr
            Examples.api_unauthorized Examples.module_abc123 [])
     <> Exit (FailJson "Error fetching facts [401: Unauthorized]").
Proof.
  assert (H : fst (core CPython.loads CPython.jsonify CPython.repr
                     Examples.api_unauthorized Examples.module_abc123 [])
              = Exit (FailJson "Error fecthing facts [401: Unauthorized]")).
  { apply (core_failure_message CPython.loads CPython.jsonify CPython.repr
             Examples.api_unauthorized Examples.module_abc123 "abc123" []
             None
             {[ "status" := IInt 401;
                "msg" := IStr "HTTP Error 401: Unauthorized";
                "body" := IStr ("{" ++ quoted "message" ++ ": "
                                  ++ quoted "Unauthorized" ++ "}") ]}
             (IInt 401) [("message", JStr "Unauthorized")]
             (JStr "Unauthorized")); try reflexivity.
    discriminate. }
  split; [exact H|]. rewrite H. discriminate.
Qed.

(** Status 200 and the empty listing: [core] hands the decoded object to
    [exit_json]. *)
Lemma core_success_witness :
  fst (core CPython.loads CPython.jsonify CPython.repr
         Examples.api_ok Examples.module_abc123 [])
  = Exit (ExitJson false
            (JObj [("floating_ips", JArr []);
                   ("meta", JObj [("total", JInt 0)])])).
Proof.
  apply (core_success CPython.loads CPython.jsonify CPython.repr
           Examples.api_ok Examples.module_abc123 "abc123" []
           (Some ("{" ++ quoted "floating_ips" ++ ": [], " ++ quoted "meta"
                    ++ ": {" ++ quoted "total" ++ ": 0}}"))
           {[ "status" := IInt 200; "msg" := IStr "OK (unknown bytes)" ]});
    reflexivity.
Defined.

(** Status 200, an empty body and a [body] entry of [info] that is not
    JSON: the [json] accessor raises, so [core] raises and [main] fails. *)
Lemma core_status_200_raises :
  Examples.api_body_header (core_request CPython.jsonify "abc123")
  = Ret (Some "", {[ "status" := IInt 200; "body" := IStr "<html>" ]})
  /\ fst (core CPython.loads CPython.jsonify CPython.repr
            Examples.api_body_header Examples.module_abc123 [])
     = Raise (ValueError "<html>")
  /\ fst (main CPython.loads CPython.str_exn CPython.jsonify CPython.repr
            Examples.api_body_header Examples.module_abc123 [])
     = Exit (FailJson (CPython.str_exn (ValueError "<html>"))).
Proof. repeat split. Qed.

(** An absent body with a JSON error body in [info] decodes to a value
    other than [None]; with an error body that is not JSON the accessor
    raises. *)
Lemma json_not_none_and_raises :
  (body Examples.response_fallback = None
   /\ Response_json CPython.loads Examples.response_fallback
      = Ret (JObj [("message", JStr "Not found")]))
  /\ (body Examples.response_fallback_html = None
      /\ Response_json CPython.loads Examples.response_fallback_html
         = Raise (ValueError "<html>")).
Proof. repeat split. Qed.

(** A body that is not JSON gives [None]. *)
Lemma json_soft_failure_witness :
  Response_json CPython.loads Examples.response_html = Ret JNull
  /\ Response_json CPython.loads Examples.response_empty = Ret JNull.
Proof.
  destruct (json_soft_failure CPython.loads Examples.response_html)
    as [H _].
  destruct (json_soft_failure CPython.loads Examples.response_empty)
    as [_ H'].
  split.
  - apply (H "<html>"); [reflexivity|discriminate|reflexivity].
  - apply H'; reflexivity.
Defined.

(** The fallback path on an error body, and on none. *)
Lemma json_fallback_path_witness :
  Response_json CPython.loads Examples.response_fallback
  = Ret (JObj [("message", JStr "Not found")])
  /\ Response_json CPython.loads Examples.response_empty = Ret JNull.
Proof.
  destruct (json_fallback_path CPython.loads Examples.response_fallback
              eq_refl) as [H _].
  destruct (json_fallback_path CPython.loads Examples.response_empty
              eq_refl) as [_ H'].
  split.
  - apply (H ("{" ++ quoted "message" ++ ": " ++ quoted "Not found" ++ "}"));
      reflexivity.
  - apply H'. reflexivity.
Defined.

(** A wrapper built from a transport response that holds the empty
    listing: the response is read out, and two accesses of [json] both
    give the decoded listing and read nothing. *)
Lemma json_access_idempotent_witness :
  obj_resp (Response_init_objects (Some Examples.file_listing)
              {[ "status" := IInt 200 ]})
  = Some (mkFile "")
  /\ fst (Response_json_objects CPython.loads
            (Response_init_objects (Some Examples.file_listing)
               {[ "status" := IInt 200 ]}))
     = Ret (JObj [("floating_ips", JArr []);
                  ("meta", JObj [("total", JInt 0)])])
  /\ fst (Response_json_objects CPython.loads
            (snd (Response_json_objects CPython.loads
                    (Response_init_objects (Some Examples.file_listing)
                       {[ "status" := IInt 200 ]}))))
     = Ret (JObj [("floating_ips", JArr []);
                  ("meta", JObj [("total", JInt 0)])])
  /\ obj_resp
       (snd (Response_json_objects CPython.loads
               (snd (Response_json_objects CPython.loads
                       (Response_init_objects (Some Examples.file_listing)
                          {[ "status" := IInt 200 ]})))))
     = Some (mkFile "").
Proof.
  apply (proj2 (json_access_idempotent CPython.loads) Examples.file_listing
           {[ "status" := IInt 200 ]}
           (JObj [("floating_ips", JArr []);
                  ("meta", JObj [("total", JInt 0)])])).
  - discriminate.
  - reflexivity.
Defined.

(** Status 500 and nothing to decode: [core] raises on [None["message"]]. *)
Lemma core_failure_on_none_witness :
  fst (core CPython.loads CPython.jsonify CPython.repr
         Examples.api_down Examples.module_abc123 [])
  = Raise (TypeError (NotSubscriptable JNull))
  /\ fst (main CPython.loads CPython.str_exn CPython.jsonify CPython.repr
            Examples.api_down Examples.module_abc123 [])
     = Exit (FailJson "'NoneType' object is not subscriptable").
Proof.
  apply (core_failure_on_none CPython.loads CPython.str_exn CPython.jsonify
           CPython.repr Examples.api_down Examples.module_abc123 "abc123" []
           None
           {[ "status" := IInt 500;
              "msg" := IStr "HTTP Error 500: Internal Server Error" ]}
           (IInt 500)); try reflexivity.
  discriminate.
Defined.

(** The headers of the request sent for the token [abc123]. *)
Lemma core_authorization_header_witness :
  exists req,
    snd (core CPython.loads CPython.jsonify CPython.repr
           Examples.api_ok Examples.module_abc123 []) = [req]
    /\ req_headers req !! "Authorization" = Some "Bearer abc123"
    /\ req_headers req !! "Content-type" = Some "application/json"
    /\ (forall k, k <> "Authorization" -> k <> "Content-type" ->
                  req_headers req !! k = None).
Proof.
  apply (core_authorization_header CPython.loads CPython.jsonify CPython.repr
           Examples.api_ok Examples.module_abc123 "abc123" []).
  reflexivity.
Defined.

(** The one request of an invocation with the token [abc123]. *)
Lemma core_issues_one_get_witness :
  exists req,
    snd (core CPython.loads CPython.jsonify CPython.repr
           Examples.api_ok Examples.module_abc123 []) = [req]
    /\ snd (main CPython.loads CPython.str_exn CPython.jsonify CPython.repr
              Examples.api_ok Examples.module_abc123 []) = [req]
    /\ req_method req = "GET"
    /\ req_url req
       = "https://api.digitalocean.com/v2/floating_ips?page=1&per_page=20"
    /\ Ret (req_url req)
       = Rest_url_builder
           (Rest_init Examples.module_abc123 (core_headers "abc123"))
           "floating_ips?page=1&per_page=20".
Proof.
  apply (core_issues_one_get CPython.loads CPython.str_exn CPython.jsonify
           CPython.repr Examples.api_ok Examples.module_abc123 "abc123" []).
  reflexivity.
Defined.

(** A [GET] with the per-call header [Accept]: the request carries the
    client's [Authorization] header alone, not the two headers merged. *)
Lemma send_drops_call_headers :
  exists req,
    snd (Rest_get CPython.jsonify Examples.api_ok Examples.rest_one_header
           "floating_ips" None (Some Examples.override_accept) []) = [req]
    /\ req_headers req = headers Examples.rest_one_header
    /\ req_headers req !! "Accept" = None
    /\ (Examples.override_accept ∪ headers Examples.rest_one_header)
         !! "Accept" = Some "text/plain"
    /\ req_headers req
       <> Examples.override_accept ∪ headers Examples.rest_one_header.
Proof.
  eexists. split; [reflexivity|]. split; [reflexivity|].
  split; [reflexivity|]. split; [reflexivity|].
  intros H. apply (f_equal (fun hs : gmap string string => hs !! "Accept")) in H.
  vm_compute in H. discriminate H.
Qed.


(** * Further properties of the module *)

(** ** [Response.json]: when it raises, and what it reads *)
Section ResponseEdges.

Variable loads : string -> option json.

(** The accessor returns or raises. *)
Lemma Response_json_never_exits (self : Response) (o : outcome) :
  Response_json loads self <> Exit o.
Proof.
  unfold Response_json. destruct (truthy (body self)); simpl.
  - destruct (body self) as [doc|]; [|discriminate].
    destruct (loads doc); discriminate.
  - destruct (info self !! "body") as [[z|doc]|]; simpl; try discriminate.
    destruct (loads doc); discriminate.
Qed.

(** A [ValueError] leaves the accessor only from the fallback path: the
    body is then empty or absent and the [ValueError] is that of
    [json.loads] on the text that [info] holds as [body].  On a body
    that is not empty the [ValueError] of the decoder is caught. *)
Theorem json_value_error_only_on_fallback (self : Response) (doc : string) :
  Response_json loads self = Raise (ValueError doc) ->
  truthy (body self) = false
  /\ info self !! "body" = Some (IStr doc)
  /\ loads doc = None.
Proof.
  unfold Response_json. destruct (truthy (body self)) eqn:Ht; simpl.
  - destruct (body self) as [d|]; [|discriminate].
    destruct (loads d); discriminate.
  - intros H. split; [reflexivity|].
    destruct (info self !! "body") as [[z|d]|]; simpl in H;
      try discriminate.
    destruct (loads d) eqn:Hl; [discriminate|].
    injection H as <-. split; [reflexivity|exact Hl].
Qed.

(** A body that is not empty shadows [info]: what the accessor ends in
    does not depend on what [info] holds, not even on its [body]. *)
Theorem json_body_shadows_info (doc : string) (i1 i2 : gmap string ival) :
  doc <> "" ->
  Response_json loads (mkResponse (Some doc) i1)
    = Response_json loads (mkResponse (Some doc) i2).
Proof.
  intros Hne.
  rewrite (Response_json_body loads (mkResponse (Some doc) i1) doc eq_refl Hne).
  rewrite (Response_json_body loads (mkResponse (Some doc) i2) doc eq_refl Hne).
  reflexivity.
Qed.

End ResponseEdges.

(** ** [Rest]: paths *)
Section RestEdges.

Variable jsonify : option json -> string.
Variable fetch_url : request -> result (option string * gmap string ival).

(** On the empty path [send] and its four aliases raise [IndexError]
    before anything is sent: the log is left as it was. *)
Theorem send_empty_path (self : Rest) (method : string)
    (data : option json) (h : option (gmap string string))
    (log : list request) :
  Rest_send jsonify fetch_url self method "" data h log = (Raise IndexError, log)
  /\ Rest_get jsonify fetch_url self "" data h log = (Raise IndexError, log)
  /\ Rest_put jsonify fetch_url self "" data h log = (Raise IndexError, log)
  /\ Rest_post jsonify fetch_url self "" data h log = (Raise IndexError, log)
  /\ Rest_delete jsonify fetch_url self "" data h log = (Raise IndexError, log).
Proof. repeat split. Qed.

(** One leading slash of the path makes no difference to the URL, and
    only one is dropped: of two leading slashes the second stays. *)
Theorem url_builder_leading_slash (self : Rest) (c : ascii) (path : string) :
  c <> "/"%char ->
  Rest_url_builder self (String "/"%char (String c path))
    = Rest_url_builder self (String c path)
  /\ Rest_url_builder self (String "/"%char (String "/"%char path))
     = Ret (baseurl self ++ "//" ++ path).
Proof.
  intros Hc. rewrite !Rest_url_builder_spec. apply Ascii.eqb_neq in Hc.
  rewrite Hc. split; reflexivity.
Qed.

End RestEdges.

(** ** [core] and [main]: every way an invocation can end *)
Section CoreEdges.

Variable loads : string -> option json.
Variable str_exn : exn -> string.
Variable jsonify : option json -> string.
Variable repr_container : json -> string.
Variable fetch_url : request -> result (option string * gmap string ival).

Local Abbreviation core' := (core loads jsonify repr_container fetch_url).
Local Abbreviation main' := (main loads str_exn jsonify repr_container fetch_url).
Local Abbreviation request' := (core_request jsonify).

(** [status_code == 200] holds exactly of the integer 200. *)
Lemma is_200_true (st : ival) : is_200 st = true <-> st = IInt 200.
Proof.
  destruct st as [z|t]; simpl; split; intros H; try discriminate.
  - apply Z.eqb_eq in H. congruence.
  - apply Z.eqb_eq. congruence.
Qed.

(** Indexing returns or raises. *)
Lemma getitem_never_exits (v : json) (k : string) (o : outcome) :
  getitem v k <> Exit o.
Proof.
  destruct v; simpl; try discriminate.
  destruct (dict_get items k); discriminate.
Qed.

(** [main] on the result of [core]: a raise becomes a failure, the log
    is that of [core]. *)
Lemma main_of_core (m : AnsibleModule) (log : list request) :
  main' m log =
    (match fst (core' m log) with
     | Raise e => Exit (FailJson (str_exn e))
     | r => r
     end, snd (core' m log)).
Proof.
  unfold main, try_except. destruct (core' m log) as [[u|e|o] l]; reflexivity.
Qed.

(** [core] on an answer of the transport, with the status found. *)
Lemma core_on_answer (m : AnsibleModule) (tok : string) (log : list request)
    (resp : option string) (i : gmap string ival) (st : ival) :
  params m !! "oauth_token" = Some tok ->
  fetch_url (request' tok) = Ret (resp, i) ->
  i !! "status" = Some st ->
  fst (core' m log) =
    match Response_json loads (Response_init resp i) with
    | Ret json =>
        if is_200 st then Exit (ExitJson false json)
        else
          match getitem json "message" with
          | Ret message =>
              Exit (FailJson (error_message repr_container st message))
          | Raise e => Raise e
          | Exit o => Exit o
          end
    | Raise e => Raise e
    | Exit o => Exit o
    end.
Proof.
  intros Ht Hf Hs. rewrite (core_unfold _ _ _ _ m tok log Ht), Hf.
  simpl fst. simpl snd. unfold Response_status_code, info_get.
  simpl info. rewrite Hs. reflexivity.
Qed.

(** [core] on an answer of the transport that has no status. *)
Lemma core_no_status (m : AnsibleModule) (tok : string) (log : list request)
    (resp : option string) (i : gmap string ival) :
  params m !! "oauth_token" = Some tok ->
  fetch_url (request' tok) = Ret (resp, i) ->
  i !! "status" = None ->
  fst (core' m log) = Raise (KeyError "status").
Proof.
  intros Ht Hf Hs. rewrite (core_unfold _ _ _ _ m tok log Ht), Hf.
  simpl fst. simpl snd. unfold Response_status_code, info_get.
  simpl info. rewrite Hs. reflexivity.
Qed.

(** The requests of an invocation, for every transport: none without a
    token, and with one exactly the [GET] of the first page, whose data
    is [jsonify] of the absent data and whose headers are the two that
    [core] builds; [main] adds none. *)
Theorem main_requests (m : AnsibleModule) (log : list request) :
  snd (main' m log) = snd (core' m log)
  /\ snd (core' m log) =
       match params m !! "oauth_token" with
       | Some tok =>
           (log ++
            [Request
               "https://api.digitalocean.com/v2/floating_ips?page=1&per_page=20"
               (jsonify None)
               {[ "Authorization" := ("Bearer " ++ tok)%string;
                  "Content-type" := "application/json" ]}
               "GET"])%list
       | None => log
       end.
Proof.
  split.
  - rewrite main_of_core. reflexivity.
  - destruct (params m !! "oauth_token") as [tok|] eqn:Ht.
    + rewrite (core_unfold _ _ _ _ m tok log Ht). reflexivity.
    + rewrite (core_without_token _ _ _ _ m log Ht). reflexivity.
Qed.

(** What the transport ends in, the invocation ends in: an exception of
    [fetch_url] is raised by [core] and reported by [main] with its text,
    and an exit of [fetch_url] is the result of both, unchanged. *)
Theorem core_transport_failure (m : AnsibleModule) (tok : string)
    (log : list request) :
  params m !! "oauth_token" = Some tok ->
  (forall e,
      fetch_url (request' tok) = Raise e ->
      fst (core' m log) = Raise e
      /\ fst (main' m log) = Exit (FailJson (str_exn e)))
  /\ (forall o,
         fetch_url (request' tok) = Exit o ->
         fst (core' m log) = Exit o /\ fst (main' m log) = Exit o).
Proof.
  intros Ht. split; intros x Hf; rewrite main_of_core;
    rewrite (core_unfold _ _ _ _ m tok log Ht), Hf; split; reflexivity.
Qed.

(** An answer without [status] makes [core] raise the [KeyError] of
    [status], whatever the body and the rest of [info] are. *)
Theorem core_missing_status (m : AnsibleModule) (tok : string)
    (log : list request) (resp : option string) (i : gmap string ival) :
  params m !! "oauth_token" = Some tok ->
  fetch_url (request' tok) = Ret (resp, i) ->
  i !! "status" = None ->
  fst (core' m log) = Raise (KeyError "status")
  /\ fst (main' m log) = Exit (FailJson (str_exn (KeyError "status"))).
Proof.
  intros Ht Hf Hs. rewrite main_of_core.
  rewrite (core_no_status m tok log resp i Ht Hf Hs). split; reflexivity.
Qed.

(** An exception of the [json] accessor leaves [core] on either branch:
    with any status, 200 or not, [core] raises it and [main] fails with
    its text. *)
Theorem core_json_raise_propagates (m : AnsibleModule) (tok : string)
    (log : list request) (resp : option string) (i : gmap string ival)
    (st : ival) (e : exn) :
  params m !! "oauth_token" = Some tok ->
  fetch_url (request' tok) = Ret (resp, i) ->
  i !! "status" = Some st ->
  Response_json loads (Response_init resp i) = Raise e ->
  fst (core' m log) = Raise e
  /\ fst (main' m log) = Exit (FailJson (str_exn e)).
Proof.
  intros Ht Hf Hs Hj. rewrite main_of_core.
  rewrite (core_on_answer m tok log resp i st Ht Hf Hs), Hj.
  split; reflexivity.
Qed.

(** [core] reports success only on status 200, and then with
    [changed=False] and the value of the [json] accessor: given an answer
    of the transport, it exits through [exit_json(changed, data)] exactly
    when [changed] is false, the status is the integer 200 and the
    accessor returns [data]. *)
Theorem core_exit_json_iff (m : AnsibleModule) (tok : string)
    (log : list request) (resp : option string) (i : gmap string ival)
    (changed : bool) (data : json) :
  params m !! "oauth_token" = Some tok ->
  fetch_url (request' tok) = Ret (resp, i) ->
  fst (core' m log) = Exit (ExitJson changed data)
  <-> changed = false
      /\ i !! "status" = Some (IInt 200)
      /\ Response_json loads (Response_init resp i) = Ret data.
Proof.
  intros Ht Hf. destruct (i !! "status") as [st|] eqn:Hs.
  - rewrite (core_on_answer m tok log resp i st Ht Hf Hs).
    destruct (Response_json loads (Response_init resp i)) as [j|e|o] eqn:Hj.
    + destruct (is_200 st) eqn:H2.
      * apply is_200_true in H2. subst st. split.
        -- intros H. injection H as <- <-. auto.
        -- intros (-> & _ & H). congruence.
      * split.
        -- intros H. destruct (getitem j "message") as [x|e|o] eqn:Hg;
             try discriminate.
           exfalso. exact (getitem_never_exits j "message" o Hg).
        -- intros (_ & H & _). injection H as ->. discriminate H2.
    + split; [discriminate|]. intros (_ & _ & H). discriminate.
    + exfalso.
      exact (Response_json_never_exits loads (Response_init resp i) o Hj).
  - rewrite (core_no_status m tok log resp i Ht Hf Hs).
    split; [discriminate|]. intros (_ & H & _). discriminate.
Qed.

(** [core] itself fails through [fail_json] only with its own message:
    given an answer of the transport, it exits through [fail_json(msg)]
    exactly when the status is not the integer 200, the [json] accessor
    returns an object that has a [message], and [msg] is the formatted
    text of that status and message. *)
Theorem core_fail_json_iff (m : AnsibleModule) (tok : string)
    (log : list request) (resp : option string) (i : gmap string ival)
    (msg : string) :
  params m !! "oauth_token" = Some tok ->
  fetch_url (request' tok) = Ret (resp, i) ->
  fst (core' m log) = Exit (FailJson msg)
  <-> exists st items message,
        i !! "status" = Some st /\ st <> IInt 200
        /\ Response_json loads (Response_init resp i) = Ret (JObj items)
        /\ dict_get items "message" = Some message
        /\ msg = error_message repr_container st message.
Proof.
  intros Ht Hf. split.
  - destruct (i !! "status") as [st|] eqn:Hs.
    + rewrite (core_on_answer m tok log resp i st Ht Hf Hs).
      destruct (Response_json loads (Response_init resp i)) as [j|e|o] eqn:Hj.
      * destruct (is_200 st) eqn:H2; [discriminate|].
        assert (Hne : st <> IInt 200).
        { intros ->. discriminate H2. }
        destruct j as [| | | |l|items]; simpl; try discriminate.
        destruct (dict_get items "message") as [message|] eqn:Hd;
          [|discriminate].
        intros H. injection H as <-.
        exists st, items, message. auto.
      * discriminate.
      * exfalso.
        exact (Response_json_never_exits loads (Response_init resp i) o Hj).
    + rewrite (core_no_status m tok log resp i Ht Hf Hs). discriminate.
  - intros (st & items & message & Hs & Hne & Hj & Hd & ->).
    exact (core_failure_message loads jsonify repr_container fetch_url
             m tok log resp i st items message Ht Hf Hs Hne Hj Hd).
Qed.

(** Status 200 with a body that is not empty and not JSON is a success
    all the same, with [None] as [data]. *)
Theorem core_success_with_undecodable_body (m : AnsibleModule)
    (tok : string) (log : list request) (doc : string)
    (i : gmap string ival) :
  params m !! "oauth_token" = Some tok ->
  fetch_url (request' tok) = Ret (Some doc, i) ->
  i !! "status" = Some (IInt 200) ->
  doc <> "" -> loads doc = None ->
  fst (core' m log) = Exit (ExitJson false JNull).
Proof.
  intros Ht Hf Hs Hne Hl.
  rewrite (core_on_answer m tok log (Some doc) i (IInt 200) Ht Hf Hs).
  rewrite (Response_json_body loads (Response_init (Some doc) i) doc
             eq_refl Hne), Hl.
  reflexivity.
Qed.

(** On a status other than 200, a decoded body that is not an object
    with a [message] gives no failure message of [core]: indexing it
    raises, by the kind of the value, and [main] fails with the text of
    that exception. *)
Theorem core_failure_without_message (m : AnsibleModule) (tok : string)
    (log : list request) (resp : option string) (i : gmap string ival)
    (st : ival) (v : json) :
  params m !! "oauth_token" = Some tok ->
  fetch_url (request' tok) = Ret (resp, i) ->
  i !! "status" = Some st -> st <> IInt 200 ->
  Response_json loads (Response_init resp i) = Ret v ->
  (forall items, v = JObj items -> dict_get items "message" = None) ->
  let e := match v with
           | JObj _ => KeyError "message"
           | JArr _ | JStr _ => TypeError (BadIndex v "message")
           | JNull | JBool _ | JInt _ => TypeError (NotSubscriptable v)
           end in
  fst (core' m log) = Raise e
  /\ fst (main' m log) = Exit (FailJson (str_exn e)).
Proof.
  intros Ht Hf Hs Hne Hj Hv e. rewrite main_of_core.
  rewrite (core_on_answer m tok log resp i st Ht Hf Hs), Hj.
  rewrite (is_200_false st Hne). subst e.
  destruct v as [| | | |l|items]; simpl; try (split; reflexivity).
  rewrite (Hv items eq_refl). split; reflexivity.
Qed.

End CoreEdges.

(** ** Worked examples for the further properties *)

(** An error page kept in [info] makes the accessor raise. *)
Lemma json_value_error_only_on_fallback_witness :
  truthy (body Examples.response_fallback_html) = false
  /\ info Examples.response_fallback_html !! "body" = Some (IStr "<html>")
  /\ CPython.loads "<html>" = None.
Proof.
  apply (json_value_error_only_on_fallback CPython.loads
           Examples.response_fallback_html "<html>").
  reflexivity.
Defined.

(** An error page as the body gives the same, with and without an error
    body in [info]. *)
Lemma json_body_shadows_info_witness :
  Response_json CPython.loads
    (mkResponse (Some "<html>") {[ "status" := IInt 502 ]})
  = Response_json CPython.loads
      (mkResponse (Some "<html>")
         {[ "status" := IInt 502; "body" := IStr "<html>" ]}).
Proof.
  apply (json_body_shadows_info CPython.loads "<html>"
           {[ "status" := IInt 502 ]}
           {[ "status" := IInt 502; "body" := IStr "<html>" ]}).
  discriminate.
Defined.

(** [/floating_ips] and [floating_ips] name the same URL. *)
Lemma url_builder_leading_slash_witness :
  Rest_url_builder Examples.rest_one_header "/floating_ips"
    = Rest_url_builder Examples.rest_one_header "floating_ips"
  /\ Rest_url_builder Examples.rest_one_header "//loating_ips"
     = Ret (baseurl Examples.rest_one_header ++ "//" ++ "loating_ips").
Proof.
  apply (url_builder_leading_slash Examples.rest_one_header "f"%char
           "loating_ips").
  discriminate.
Defined.

(** A transport that raises, and one that ends the process. *)
Lemma core_transport_failure_witness :
  (fst (core CPython.loads CPython.jsonify CPython.repr Examples.api_raises
          Examples.module_abc123 [])
   = Raise (TransportError "timed out")
   /\ fst (main CPython.loads CPython.str_exn CPython.jsonify CPython.repr
             Examples.api_raises Examples.module_abc123 [])
      = Exit (FailJson (CPython.str_exn (TransportError "timed out"))))
  /\ (fst (core CPython.loads CPython.jsonify CPython.repr Examples.api_exits
             Examples.module_abc123 [])
      = Exit (FailJson "Failed to validate the SSL certificate")
      /\ fst (main CPython.loads CPython.str_exn CPython.jsonify CPython.repr
                Examples.api_exits Examples.module_abc123 [])
         = Exit (FailJson "Failed to validate the SSL certificate")).
Proof.
  split.
  - apply (proj1 (core_transport_failure CPython.loads CPython.str_exn
                    CPython.jsonify CPython.repr Examples.api_raises
                    Examples.module_abc123 "abc123" [] eq_refl)).
    reflexivity.
  - apply (proj2 (core_transport_failure CPython.loads CPython.str_exn
                    CPython.jsonify CPython.repr Examples.api_exits
                    Examples.module_abc123 "abc123" [] eq_refl)).
    reflexivity.
Defined.

(** An answer without [status]. *)
Lemma core_missing_status_witness :
  fst (core CPython.loads CPython.jsonify CPython.repr Examples.api_no_status
         Examples.module_abc123 [])
  = Raise (KeyError "status")
  /\ fst (main CPython.loads CPython.str_exn CPython.jsonify CPython.repr
            Examples.api_no_status Examples.module_abc123 [])
     = Exit (FailJson (CPython.str_exn (KeyError "status"))).
Proof.
  apply (core_missing_status CPython.loads CPython.str_exn CPython.jsonify
           CPython.repr Examples.api_no_status Examples.module_abc123
           "abc123" [] None {[ "msg" := IStr "Request failed" ]});
    reflexivity.
Defined.

(** Status 502 with an error page in [info]: the [ValueError] of the
    accessor is what the invocation reports. *)
Lemma core_json_raise_propagates_witness :
  fst (core CPython.loads CPython.jsonify CPython.repr
         Examples.api_bad_gateway Examples.module_abc123 [])
  = Raise (ValueError "<html>")
  /\ fst (main CPython.loads CPython.str_exn CPython.jsonify CPython.repr
            Examples.api_bad_gateway Examples.module_abc123 [])
     = Exit (FailJson (CPython.str_exn (ValueError "<html>"))).
Proof.
  apply (core_json_raise_propagates CPython.loads CPython.str_exn
           CPython.jsonify CPython.repr Examples.api_bad_gateway
           Examples.module_abc123 "abc123" [] None
           {[ "status" := IInt 502; "body" := IStr "<html>" ]}
           (IInt 502) (ValueError "<html>"));
    reflexivity.
Defined.

(** The success on the empty listing has [changed=False], status 200 and
    the decoded listing. *)
Lemma core_exit_json_iff_witness :
  false = false
  /\ ({[ "status" := IInt 200; "msg" := IStr "OK (unknown bytes)" ]}
        : gmap string ival) !! "status" = Some (IInt 200)
  /\ Response_json CPython.loads
       (Response_init
          (Some ("{" ++ quoted "floating_ips" ++ ": [], " ++ quoted "meta"
                   ++ ": {" ++ quoted "total" ++ ": 0}}"))
          {[ "status" := IInt 200; "msg" := IStr "OK (unknown bytes)" ]})
     = Ret (JObj [("floating_ips", JArr []);
                  ("meta", JObj [("total", JInt 0)])]).
Proof.
  apply (proj1 (core_exit_json_iff CPython.loads CPython.jsonify CPython.repr
                  Examples.api_ok Examples.module_abc123 "abc123" []
                  (Some ("{" ++ quoted "floating_ips" ++ ": [], "
                           ++ quoted "meta" ++ ": {" ++ quoted "total"
                           ++ ": 0}}"))
                  {[ "status" := IInt 200; "msg" := IStr "OK (unknown bytes)" ]}
                  false
                  (JObj [("floating_ips", JArr []);
                         ("meta", JObj [("total", JInt 0)])])
                  eq_refl eq_refl)).
  reflexivity.
Defined.

(** The failure on 401 is the formatted text of 401 and [Unauthorized]. *)
Lemma core_fail_json_iff_witness :
  fst (core CPython.loads CPython.jsonify CPython.repr
         Examples.api_unauthorized Examples.module_abc123 [])
  = Exit (FailJson (error_message CPython.repr (IInt 401)
                      (JStr "Unauthorized"))).
Proof.
  apply (proj2 (core_fail_json_iff CPython.loads CPython.jsonify CPython.repr
                  Examples.api_unauthorized Examples.module_abc123 "abc123"
                  [] None
                  {[ "status" := IInt 401;
                     "msg" := IStr "HTTP Error 401: Unauthorized";
                     "body" := IStr ("{" ++ quoted "message" ++ ": "
                                       ++ quoted "Unauthorized" ++ "}") ]}
                  (error_message CPython.repr (IInt 401)
                     (JStr "Unauthorized"))
                  eq_refl eq_refl)).
  exists (IInt 401), [("message", JStr "Unauthorized")], (JStr "Unauthorized").
  repeat split. discriminate.
Defined.

(** Status 200 with an HTML page succeeds with [data=None]. *)
Lemma core_success_with_undecodable_body_witness :
  fst (core CPython.loads CPython.jsonify CPython.repr Examples.api_html_page
         Examples.module_abc123 [])
  = Exit (ExitJson false JNull).
Proof.
  apply (core_success_with_undecodable_body CPython.loads CPython.jsonify
           CPython.repr Examples.api_html_page Examples.module_abc123
           "abc123" [] "<html>" {[ "status" := IInt 200 ]});
    try reflexivity.
  discriminate.
Defined.

(** Status 404 with an error object that has an [id] and no [message]:
    the invocation reports the [KeyError] of [message]. *)
Lemma core_failure_without_message_witness :
  fst (core CPython.loads CPython.jsonify CPython.repr Examples.api_no_message
         Examples.module_abc123 [])
  = Raise (KeyError "message")
  /\ fst (main CPython.loads CPython.str_exn CPython.jsonify CPython.repr
            Examples.api_no_message Examples.module_abc123 [])
     = Exit (FailJson (CPython.str_exn (KeyError "message"))).
Proof.
  apply (core_failure_without_message CPython.loads CPython.str_exn
           CPython.jsonify CPython.repr Examples.api_no_message
           Examples.module_abc123 "abc123" [] None
           {[ "status" := IInt 404;
              "body" := IStr ("{" ++ quoted "id" ++ ": "
                                ++ quoted "not_found" ++ "}") ]}
           (IInt 404) (JObj [("id", JStr "not_found")]));
    try reflexivity.
  - discriminate.
  - intros items H. injection H as <-. reflexivity.
Defined.

(** ** [send] and the accessors together *)
Section SendThenRead.

Variable loads : string -> option json.
Variable jsonify : option json -> string.
Variable fetch_url : request -> result (option string * gmap string ival).

(** An answer without a transport response, as an HTTP error gives it,
    still comes back from [send] as a [Response]: one request is logged,
    with [jsonify] of the data as its data, the status is read from
    [info], and [json] decodes the error body kept in [info]. *)
Theorem send_error_body_decoded (self : Rest) (method : string) (c : ascii)
    (path : string) (data : option json) (h : option (gmap string string))
    (log : list request) (i : gmap string ival) (doc : string) (v : json) :
  let url := baseurl self ++ "/"
               ++ (if Ascii.eqb c "/"%char then path else String c path) in
  let req := Request url (jsonify data) (headers self) method in
  fetch_url req = Ret (None, i) ->
  i !! "body" = Some (IStr doc) -> loads doc = Some v ->
  (response <- Rest_send jsonify fetch_url self method (String c path) data h ;;
   status_code <- lift (Response_status_code response) ;;
   json <- lift (Response_json loads response) ;;
   ret (status_code, json)) log
  = (match i !! "status" with
     | Some st => Ret (st, v)
     | None => Raise (KeyError "status")
     end, (log ++ [req])%list).
Proof.
  intros url req Hf Hi Hl. unfold bind at 1.
  rewrite Rest_send_unfold, Rest_url_builder_spec. cbv zeta.
  fold url. fold req. rewrite Hf. unfold bind, lift, ret.
  simpl fst. simpl snd. unfold Response_status_code, info_get. simpl info.
  rewrite (Response_json_fallback loads (Response_init None i) eq_refl).
  simpl info. rewrite Hi. simpl json_loads. rewrite Hl.
  destruct (i !! "status") as [st|]; reflexivity.
Qed.

End SendThenRead.

(** A [DELETE] that the API refuses with 401. *)
Lemma send_error_body_decoded_witness :
  (response <- Rest_send CPython.jsonify Examples.api_unauthorized
                 Examples.rest_one_header "DELETE" "/floating_ips/1.2.3.4"
                 None None ;;
   status_code <- lift (Response_status_code response) ;;
   json <- lift (Response_json CPython.loads response) ;;
   ret (status_code, json)) []
  = (Ret (IInt 401, JObj [("message", JStr "Unauthorized")]),
     [Request "https://api.digitalocean.com/v2/floating_ips/1.2.3.4" "null"
        {[ "Authorization" := "Bearer abc123" ]} "DELETE"]).
Proof.
  etransitivity.
  - apply (send_error_body_decoded CPython.loads CPython.jsonify
             Examples.api_unauthorized Examples.rest_one_header "DELETE"
             "/"%char "floating_ips/1.2.3.4" None None []
             {[ "status" := IInt 401;
                "msg" := IStr "HTTP Error 401: Unauthorized";
                "body" := IStr ("{" ++ quoted "message" ++ ": "
                                  ++ quoted "Unauthorized" ++ "}") ]}
             ("{" ++ quoted "message" ++ ": " ++ quoted "Unauthorized" ++ "}")
             (JObj [("message", JStr "Unauthorized")]));
      reflexivity.
  - reflexivity.
Defined.
